(** * Reconnect policy of the RedisManager client (src/index.ts)

    The only branching logic of the repository is the [retry_strategy]
    callback handed to [createClient] in the constructor of [RedisManager]
    (src/index.ts, lines 15-27).  This development embeds that callback and
    settles the properties the specification states about it.

    Numbers.  [options.attempt] is a count of attempts and
    [options.total_retry_time] a number of milliseconds; both are integers
    and are modelled in [Z].  Every product the callback computes on the
    branch that reaches it is at most [10 * 100], far inside the range in
    which JavaScript numbers are exact integers.

    Effects.  The callback writes one line with [console.error] on the
    refused branch.  The console is modelled as explicit state, the list of
    lines written so far, threaded through a small state monad. *)

From Stdlib Require Import ZArith Ascii String List Bool Lia.
Import ListNotations.

Local Open Scope Z_scope.
Local Open Scope string_scope.

(** ** The console *)

(** Lines written with [console.error], oldest first. *)
Definition Console : Type := list string.

Definition IO (A : Type) : Type := Console -> A * Console.

Definition ret {A : Type} (a : A) : IO A := fun w => (a, w).

Definition bind {A B : Type} (m : IO A) (k : A -> IO B) : IO B :=
  fun w => let (a, w') := m w in k a w'.

Notation "m ;; k" := (bind m (fun _ => k))
  (at level 61, right associativity).

(** [console.error(line)] *)
Definition console_error (line : string) : IO unit :=
  fun w => (tt, (w ++ [line])%list).

(** ** Data *)

(** The error object the client library passes as [options.error]; the
    callback reads only its [code], which a given error may lack. *)
Record RedisError : Type := mkError {
  code : option string
}.

(** The [options] argument of the callback: what the specification calls
    the RetryState.  [error] is [None] when [options.error] is absent. *)
Record RetryState : Type := mkState {
  attempt : Z;
  total_retry_time : Z;
  error : option RedisError
}.

(** What the callback returns: [new Error(message)] stops the reconnection,
    a number is the delay in milliseconds before the next attempt. *)
Inductive Outcome : Type :=
| Fatal (reason : string)
| WaitThenRetry (delay : Z).

(** ** The callback *)

(** [error.code === 'ECONNREFUSED'] *)
Definition code_is (e : RedisError) (c : string) : bool :=
  match code e with
  | Some c' => String.eqb c' c
  | None => false
  end.

(** [options.error && options.error.code === 'ECONNREFUSED'] *)
Definition refused (options : RetryState) : bool :=
  match error options with
  | Some e => code_is e "ECONNREFUSED"
  | None => false
  end.

Definition retry_strategy (options : RetryState) : IO Outcome :=
  if refused options then
    console_error "Redis server refused connection" ;;
    ret (Fatal "Redis server refused connection")
  else if total_retry_time options >? 1000 * 60 * 60 then
    ret (Fatal "Retry time exhausted")
  else if attempt options >? 10 then
    ret (Fatal "Max retry attempts reached")
  else
    ret (WaitThenRetry (Z.min (attempt options * 100) 3000)).

(** The decision of the policy: the value the callback returns, here read
    off a run that starts from an empty console ([retry_strategy_outcome]
    shows that the console it starts from does not matter). *)
Definition decide (s : RetryState) : Outcome := fst (retry_strategy s []).

(** ** The specification's view of the last error *)

Inductive ErrorKind : Type :=
| ConnectionRefused
| OtherTransportError
| NoError.

Definition kind_of (err : option RedisError) : ErrorKind :=
  match err with
  | None => NoError
  | Some e => if code_is e "ECONNREFUSED" then ConnectionRefused
              else OtherTransportError
  end.

Definition error_kind (s : RetryState) : ErrorKind := kind_of (error s).

(** One hour, in milliseconds. *)
Definition retry_time_cap : Z := 3600000.

Definition is_fatal (o : Outcome) : bool :=
  match o with
  | Fatal _ => true
  | WaitThenRetry _ => false
  end.

(** ** Sample errors *)

Definition econnrefused : RedisError := mkError (Some "ECONNREFUSED").
Definition etimedout : RedisError := mkError (Some "ETIMEDOUT").
Definition uncoded : RedisError := mkError None.

(** * The RedisManager class and the demo script (src/index.ts, 7-275)

    The client returned by [createClient] belongs to the [redis] library
    and is a parameter of the model.  An awaited command of the client
    settles, resolved with a value or rejected with an error, and changes
    the state of the client; while it is pending the client may emit
    events, which the listeners registered by the constructor handle, in
    order, before the code after the [await] runs. *)

Module RedisManager.

Inductive Stream : Type := Stdout | Stderr.

(** A piece of a template literal: literal text, or a number substituted
    with [${...}], which the runtime converts to text. *)
Inductive Piece : Type :=
| Text (s : string)
| Num (n : Z).

Inductive Settled {Thrown : Type} (A : Type) : Type :=
| Resolved (a : A)
| Rejected (e : Thrown).
Arguments Resolved {Thrown A} a.
Arguments Rejected {Thrown A} e.

Section Model.

(** Values that are thrown, passed to the ['error'] listener and caught. *)
Context {Thrown : Type}.
(** The state of the client of the [redis] library. *)
Context {ClientState : Type}.

(** The values the class prints.  [VTemplate] is the string a template
    literal with numbers in it evaluates to, kept as its pieces. *)
Inductive JsValue : Type :=
| VUndefined
| VNull
| VBool (b : bool)
| VNum (n : Z)
| VStr (s : string)
| VTemplate (pieces : list Piece)
| VArray (l : list string)
| VRecord (h : list (string * string))
| VThrown (e : Thrown).

(** One call of [console.log] ([Stdout]) or [console.error] ([Stderr]),
    with its arguments. *)
Record LogEntry : Type := mkEntry {
  stream : Stream;
  args : list JsValue
}.

Inductive ClientEvent : Type :=
| EvError (err : Thrown)
| EvConnect
| EvReady
| EvEnd.

Definition Await (A : Type) : Type :=
  ClientState -> @Settled Thrown A * list ClientEvent * ClientState.

(** The commands of the client the class calls. *)
Record RedisClient : Type := mkClient {
  client_connect : Await unit;
  client_disconnect : Await unit;
  client_set : string -> string -> Await (option string);
  client_setEx : string -> Z -> string -> Await string;
  client_get : string -> Await (option string);
  client_del : string -> Await Z;
  client_exists : string -> Await Z;
  client_hSet : string -> string -> string -> Await Z;
  client_hGet : string -> string -> Await (option string);
  client_hGetAll : string -> Await (list (string * string));
  client_lPush : string -> list string -> Await Z;
  client_lPop : string -> Await (option string);
  client_lRange : string -> Z -> Z -> Await (list string);
  client_ping : Await string;
  client_flushAll : Await string
}.

(** What [createClient] is given. *)
Record ClientOptions : Type := mkOptions {
  url : string;
  retry : RetryState -> IO Outcome  (* the field [retry_strategy] *)
}.

(** The private fields of a [RedisManager], and the console. *)
Record World : Type := mkWorld {
  client : ClientState;
  console : list LogEntry;
  isConnected : bool
}.

Definition M (A : Type) : Type := World -> @Settled Thrown A * World.

Definition mret {A : Type} (a : A) : M A := fun w => (Resolved a, w).

Definition mbind {A B : Type} (m : M A) (k : A -> M B) : M B :=
  fun w =>
    match m w with
    | (Resolved a, w') => k a w'
    | (Rejected e, w') => (Rejected e, w')
    end.

Definition throw {A : Type} (e : Thrown) : M A := fun w => (Rejected e, w).

(** [try { body } catch (error) { handler }] *)
Definition try_catch {A : Type} (body : M A) (handler : Thrown -> M A) : M A :=
  fun w =>
    match body w with
    | (Resolved a, w') => (Resolved a, w')
    | (Rejected e, w') => handler e w'
    end.

(** [try { body } finally { fin }]: what [fin] throws replaces the outcome
    of [body]. *)
Definition try_finally {A : Type} (body : M A) (fin : M unit) : M A :=
  fun w =>
    let (r, w') := body w in
    match fin w' with
    | (Resolved _, w'') => (r, w'')
    | (Rejected e, w'') => (Rejected e, w'')
    end.

Definition print (s : Stream) (vs : list JsValue) (w : World) : World :=
  mkWorld (client w) (console w ++ [mkEntry s vs])%list (isConnected w).

Definition console_log (vs : list JsValue) : M unit :=
  fun w => (Resolved tt, print Stdout vs w).

Definition console_error (vs : list JsValue) : M unit :=
  fun w => (Resolved tt, print Stderr vs w).

Definition set_isConnected (b : bool) (w : World) : World :=
  mkWorld (client w) (console w) b.

(** The four listeners the constructor registers (lines 31-48). *)
Definition on_event (ev : ClientEvent) (w : World) : World :=
  match ev with
  | EvError err =>
      set_isConnected false
        (print Stderr [VStr "Redis Client Error:"; VThrown err] w)
  | EvConnect =>
      set_isConnected true (print Stdout [VStr "Connected to Redis server"] w)
  | EvReady => print Stdout [VStr "Redis client is ready"] w
  | EvEnd =>
      set_isConnected false (print Stdout [VStr "Redis connection closed"] w)
  end.

Definition handle_events (evs : list ClientEvent) (w : World) : World :=
  fold_left (fun w' ev => on_event ev w') evs w.

(** [await this.client.command(...)] *)
Definition await {A : Type} (command : Await A) : M A :=
  fun w =>
    let '(r, evs, c') := command (client w) in
    (r, handle_events evs (mkWorld c' (console w) (isConnected w))).

End Model.

Arguments JsValue : clear implicits.
Arguments LogEntry : clear implicits.
Arguments ClientEvent : clear implicits.
Arguments RedisClient : clear implicits.
Arguments World : clear implicits.
Arguments M : clear implicits.
Arguments Await : clear implicits.

Notation "x <- m ;; k" := (mbind m (fun x => k))
  (at level 61, m at next level, right associativity).
Notation "m >> k" := (mbind m (fun _ => k))
  (at level 61, right associativity).

(** Template literals: [`${v}`] for a [string | null] and for a
    [string | undefined]. *)
Definition nullable_to_string (v : option string) : string :=
  match v with
  | Some s => s
  | None => "null"
  end.

Definition optional_to_string (v : option string) : string :=
  match v with
  | Some s => s
  | None => "undefined"
  end.

Definition of_nullable {Thrown : Type} (v : option string) : JsValue Thrown :=
  match v with
  | Some s => VStr s
  | None => VNull
  end.

Definition of_optional {Thrown : Type} (v : option string) : JsValue Thrown :=
  match v with
  | Some s => VStr s
  | None => VUndefined
  end.

(** [if (expireInSeconds)] on a [number | undefined]. *)
Definition truthy_number (n : option Z) : bool :=
  match n with
  | Some k => negb (k =? 0)%Z
  | None => false
  end.

(** [process.env.REDIS_URL || 'redis://localhost:6379'], line 14: an unset
    variable and an empty one are both falsy. *)
Definition redis_url (REDIS_URL : option string) : string :=
  match REDIS_URL with
  | Some "" => "redis://localhost:6379"
  | Some u => u
  | None => "redis://localhost:6379"
  end.

Section Methods.

Context {Thrown ClientState : Type}.
Variable this_client : RedisClient Thrown ClientState.

(** lines 51-58 *)
Definition connect : M Thrown ClientState unit :=
  try_catch
    (await (client_connect this_client))
    (fun error =>
       console_error [VStr "Failed to connect to Redis:"; VThrown error] >>
       throw error).

(** lines 60-64 *)
Definition disconnect : M Thrown ClientState unit :=
  fun w =>
    if isConnected w then await (client_disconnect this_client) w
    else (Resolved tt, w).

(** lines 67-79 *)
Definition set (key value : string) (expireInSeconds : option Z) : M Thrown ClientState unit :=
  try_catch
    ((if truthy_number expireInSeconds then
        await (client_setEx this_client key
                 (match expireInSeconds with Some n => n | None => 0 end)
                 value) >> mret tt
      else
        await (client_set this_client key value) >> mret tt) >>
     console_log [VStr ("Set key: " ++ key ++ " = " ++ value)])
    (fun error =>
       console_error [VStr ("Error setting key " ++ key ++ ":"); VThrown error] >>
       throw error).

(** lines 81-90 *)
Definition get (key : string) : M Thrown ClientState (option string) :=
  try_catch
    (value <- await (client_get this_client key) ;;
     console_log [VStr ("Get key: " ++ key ++ " = " ++ nullable_to_string value)] >>
     mret value)
    (fun error =>
       console_error [VStr ("Error getting key " ++ key ++ ":"); VThrown error] >>
       throw error).

(** lines 92-101 *)
Definition delete (key : string) : M Thrown ClientState Z :=
  try_catch
    (result <- await (client_del this_client key) ;;
     console_log [VTemplate [Text ("Deleted key: " ++ key ++ ", result: ");
                             Num result]] >>
     mret result)
    (fun error =>
       console_error [VStr ("Error deleting key " ++ key ++ ":"); VThrown error] >>
       throw error).

(** lines 103-111; the source's name is a keyword here. *)
Definition exists_ (key : string) : M Thrown ClientState bool :=
  try_catch
    (exists' <- await (client_exists this_client key) ;;
     mret (exists' =? 1)%Z)
    (fun error =>
       console_error [VStr ("Error checking if key " ++ key ++ " exists:");
                      VThrown error] >>
       throw error).

(** lines 114-123 *)
Definition hSet (key field value : string) : M Thrown ClientState Z :=
  try_catch
    (result <- await (client_hSet this_client key field value) ;;
     console_log [VStr ("Hash set: " ++ key ++ "." ++ field ++ " = " ++ value)] >>
     mret result)
    (fun error =>
       console_error [VStr ("Error setting hash " ++ key ++ "." ++ field ++ ":");
                      VThrown error] >>
       throw error).

(** lines 125-134 *)
Definition hGet (key field : string) : M Thrown ClientState (option string) :=
  try_catch
    (value <- await (client_hGet this_client key field) ;;
     console_log [VStr ("Hash get: " ++ key ++ "." ++ field ++ " = " ++
                        optional_to_string value)] >>
     mret value)
    (fun error =>
       console_error [VStr ("Error getting hash " ++ key ++ "." ++ field ++ ":");
                      VThrown error] >>
       throw error).

(** lines 136-145 *)
Definition hGetAll (key : string) : M Thrown ClientState (list (string * string)) :=
  try_catch
    (hash <- await (client_hGetAll this_client key) ;;
     console_log [VStr ("Hash getAll: " ++ key ++ " ="); VRecord hash] >>
     mret hash)
    (fun error =>
       console_error [VStr ("Error getting all hash fields for " ++ key ++ ":");
                      VThrown error] >>
       throw error).

(** lines 148-157; [values.join(', ')] is [String.concat]. *)
Definition lPush (key : string) (values : list string) : M Thrown ClientState Z :=
  try_catch
    (result <- await (client_lPush this_client key values) ;;
     console_log [VStr ("List push: " ++ key ++ " <- [" ++
                        String.concat ", " values ++ "]")] >>
     mret result)
    (fun error =>
       console_error [VStr ("Error pushing to list " ++ key ++ ":"); VThrown error] >>
       throw error).

(** lines 159-168 *)
Definition lPop (key : string) : M Thrown ClientState (option string) :=
  try_catch
    (value <- await (client_lPop this_client key) ;;
     console_log [VStr ("List pop: " ++ key ++ " -> " ++ nullable_to_string value)] >>
     mret value)
    (fun error =>
       console_error [VStr ("Error popping from list " ++ key ++ ":");
                      VThrown error] >>
       throw error).

(** lines 170-179; an omitted bound takes its default, [0] and [-1]. *)
Definition lRange (key : string) (start stop : option Z) : M Thrown ClientState (list string) :=
  let start := match start with Some n => n | None => 0 end in
  let stop := match stop with Some n => n | None => -1 end in
  try_catch
    (list <- await (client_lRange this_client key start stop) ;;
     console_log [VTemplate [Text ("List range: " ++ key ++ "["); Num start;
                             Text ":"; Num stop; Text "] ="];
                  VArray list] >>
     mret list)
    (fun error =>
       console_error [VStr ("Error getting list range " ++ key ++ ":");
                      VThrown error] >>
       throw error).

(** lines 182-191 *)
Definition ping : M Thrown ClientState string :=
  try_catch
    (response <- await (client_ping this_client) ;;
     console_log [VStr "Redis ping:"; VStr response] >>
     mret response)
    (fun error =>
       console_error [VStr "Error pinging Redis:"; VThrown error] >>
       throw error).

(** lines 193-202 *)
Definition flushAll : M Thrown ClientState string :=
  try_catch
    (response <- await (client_flushAll this_client) ;;
     console_log [VStr "Flushed all Redis data"] >>
     mret response)
    (fun error =>
       console_error [VStr "Error flushing Redis:"; VThrown error] >>
       throw error).

(** lines 204-206 *)
Definition getConnectionStatus (w : World Thrown ClientState) : bool :=
  isConnected w.

End Methods.

Definition LF : string := String "010"%char "".

(** The lines [main] prints around the demo (lines 264, 265 and 274). *)
Definition banner_start : string := "ðŸš€ Starting Tom's Redis Project".
Definition banner_rule : string := "================================".
Definition banner_done : string := LF ++ "âœ… Application completed successfully".

(** How the process ends: [main] returns, or [process.exit(code)]. *)
Inductive Exit : Type :=
| Completed
| Exited (code : Z).

Section Script.

Context {Thrown ClientState : Type}.
(** [createClient] of the library: it throws ([inl]), as on a URL it
    cannot parse, or returns a client, here the state of that client
    ([inr]). *)
Variable createClient : ClientOptions -> Thrown + ClientState.
Variable this_client : RedisClient Thrown ClientState.

(** [new RedisManager()], lines 9-49, with the console as it stands: what
    [createClient] throws, the constructor throws. *)
Definition constructor (REDIS_URL : option string)
    (out : list (LogEntry Thrown)) : Thrown + World Thrown ClientState :=
  match createClient (mkOptions (redis_url REDIS_URL) retry_strategy) with
  | inl error => inl error
  | inr c => inr (mkWorld c out false)
  end.

(** What the script leaves behind: the console alone when no manager was
    built, the manager with the console otherwise. *)
Inductive Ended : Type :=
| NoManager (out : list (LogEntry Thrown))
| WithManager (w : World Thrown ClientState).

Definition print_ended (s : Stream) (vs : list (JsValue Thrown))
    (st : Ended) : Ended :=
  match st with
  | NoManager out => NoManager (out ++ [mkEntry s vs])%list
  | WithManager w => WithManager (print s vs w)
  end.

Definition final_console (st : Ended) : list (LogEntry Thrown) :=
  match st with
  | NoManager out => out
  | WithManager w => console w
  end.

Definition final_client (st : Ended) : option ClientState :=
  match st with
  | NoManager _ => None
  | WithManager w => Some (client w)
  end.

(** The body of the [try] of [demonstrateRedisOperations], lines 214-252. *)
Definition demo_steps : M Thrown ClientState unit :=
  connect this_client >>
  console_log [VStr (LF ++ "=== Basic String Operations ===")] >>
  set this_client "greeting" "Hello, Redis!" (Some 300%Z) >>
  greeting <- get this_client "greeting" ;;
  console_log [VStr "Retrieved greeting:"; of_nullable greeting] >>
  console_log [VStr (LF ++ "=== Hash Operations ===")] >>
  hSet this_client "user:1" "name" "Tom" >>
  hSet this_client "user:1" "email" "tom@example.com" >>
  hSet this_client "user:1" "age" "30" >>
  userName <- hGet this_client "user:1" "name" ;;
  console_log [VStr "User name:"; of_optional userName] >>
  allUserData <- hGetAll this_client "user:1" ;;
  console_log [VStr "All user data:"; VRecord allUserData] >>
  console_log [VStr (LF ++ "=== List Operations ===")] >>
  lPush this_client "tasks" ["Learn Redis"; "Build project"; "Deploy to AWS"] >>
  tasks <- lRange this_client "tasks" None None ;;
  console_log [VStr "All tasks:"; VArray tasks] >>
  nextTask <- lPop this_client "tasks" ;;
  console_log [VStr "Next task:"; of_nullable nextTask] >>
  console_log [VStr (LF ++ "=== Utility Operations ===")] >>
  pingResponse <- ping this_client ;;
  console_log [VStr "Ping response:"; VStr pingResponse] >>
  keyExists <- exists_ this_client "greeting" ;;
  console_log [VStr "Greeting key exists:"; VBool keyExists] >>
  console_log [VStr (LF ++ "=== Redis Demo Complete ===")].

(** The [try] with its [catch], lines 213-256. *)
Definition demo_guarded : M Thrown ClientState unit :=
  try_catch demo_steps
    (fun error => console_error [VStr "Demo failed:"; VThrown error]).

(** lines 210-260.  The manager is built at line 211, before the [try]:
    what the constructor throws rejects the demo at once, with no [catch]
    and no [finally]. *)
Definition demonstrateRedisOperations (REDIS_URL : option string)
    (out : list (LogEntry Thrown)) : @Settled Thrown unit * Ended :=
  match constructor REDIS_URL out with
  | inl error => (Rejected error, NoManager out)
  | inr redis =>
      let (r, w) := try_finally demo_guarded (disconnect this_client) redis in
      (r, WithManager w)
  end.

(** lines 263-275 *)
Definition main (REDIS_URL : option string)
    (out : list (LogEntry Thrown)) : Exit * Ended :=
  let out := (out ++ [mkEntry Stdout [VStr banner_start];
                      mkEntry Stdout [VStr banner_rule]])%list in
  match demonstrateRedisOperations REDIS_URL out with
  | (Resolved _, st) => (Completed, print_ended Stdout [VStr banner_done] st)
  | (Rejected error, st) =>
      (Exited 1,
       print_ended Stderr [VStr "Application failed:"; VThrown error] st)
  end.

End Script.

Arguments Ended : clear implicits.

(** ** Vocabulary for the statements *)

(** The events whose listener assigns [isConnected]: all but ['ready']. *)
Definition assigns_status {Thrown : Type} (ev : ClientEvent Thrown) : bool :=
  match ev with
  | EvReady => false
  | _ => true
  end.

Definition is_error_event {Thrown : Type} (ev : ClientEvent Thrown) : bool :=
  match ev with
  | EvError _ => true
  | _ => false
  end.


(** The settlement of a command, its value forgotten. *)
Definition forget {Thrown A : Type} (r : @Settled Thrown A) : @Settled Thrown unit :=
  match r with
  | Resolved _ => Resolved tt
  | Rejected e => Rejected e
  end.

(** How [command] settles when the client is in the state of [w]. *)
Definition settlement {Thrown ClientState A : Type}
    (command : Await Thrown ClientState A) (w : World Thrown ClientState)
    : @Settled Thrown A :=
  fst (fst (command (client w))).

(** The world once the client has run [command] and the listeners have
    handled the events of the call; nothing else is printed. *)
Definition after_command {Thrown ClientState A : Type}
    (command : Await Thrown ClientState A) (w : World Thrown ClientState)
    : World Thrown ClientState :=
  handle_events (snd (fst (command (client w))))
    (mkWorld (snd (command (client w))) (console w) (isConnected w)).

(** The manager and the console when the [finally] of the demo starts, for
    a client created in state [c] and a console [out]. *)
Definition at_finally {Thrown ClientState : Type}
    (this_client : RedisClient Thrown ClientState) (c : ClientState)
    (out : list (LogEntry Thrown)) : World Thrown ClientState :=
  snd (demo_guarded this_client (mkWorld c out false)).

(** [run] passes [command] through: it calls it once, settles as it does,
    and prints one entry after the entries of the listeners, on the
    standard stream when the command resolved, on the error stream and
    ending with the error when it rejected. *)
Definition passes_through {Thrown ClientState A : Type}
    (run : M Thrown ClientState A) (command : Await Thrown ClientState A)
    (w : World Thrown ClientState) : Prop :=
  fst (run w) = settlement command w /\
  exists entry,
    snd (run w) = print (stream entry) (args entry) (after_command command w) /\
    match settlement command w with
    | Resolved _ => stream entry = Stdout
    | Rejected e =>
        stream entry = Stderr /\ last (args entry) VUndefined = VThrown e
    end.

End RedisManager.

(** ** Two clients to run the class on

    Their state is the list of the commands they received, oldest first;
    what they throw is a string. *)
Module SampleClient.

Import RedisManager.

Definition State : Type := list string.

Definition call {A : Type} (name : string) (r : @Settled string A)
    (evs : list (ClientEvent string)) : Await string State A :=
  fun st => (r, evs, (st ++ [name])%list).

(** A server that answers: every command resolves. *)
Definition healthy : RedisClient string State :=
  mkClient
    (call "connect" (Resolved tt) [EvConnect; EvReady])
    (call "disconnect" (Resolved tt) [EvEnd])
    (fun _ _ => call "set" (Resolved (Some "OK")) [])
    (fun _ _ _ => call "setEx" (Resolved "OK") [])
    (fun _ => call "get" (Resolved (Some "Hello, Redis!")) [])
    (fun _ => call "del" (Resolved 1%Z) [])
    (fun _ => call "exists" (Resolved 1%Z) [])
    (fun _ _ _ => call "hSet" (Resolved 1%Z) [])
    (fun _ _ => call "hGet" (Resolved (Some "Tom")) [])
    (fun _ => call "hGetAll" (Resolved [("name", "Tom")]) [])
    (fun _ vs => call "lPush" (Resolved (Z.of_nat (List.length vs))) [])
    (fun _ => call "lPop" (Resolved (Some "Deploy to AWS")) [])
    (fun _ _ _ => call "lRange" (Resolved ["Deploy to AWS"; "Build project"]) [])
    (call "ping" (Resolved "PONG") [])
    (call "flushAll" (Resolved "OK") []).

(** No server: every command but [disconnect] rejects, and the failed
    connection is also reported by an ['error'] event. *)
Definition down : RedisClient string State :=
  mkClient
    (call "connect" (Rejected "ECONNREFUSED") [EvError "ECONNREFUSED"])
    (call "disconnect" (Resolved tt) [EvEnd])
    (fun _ _ => call "set" (Rejected "closed") [])
    (fun _ _ _ => call "setEx" (Rejected "closed") [])
    (fun _ => call "get" (Rejected "closed") [])
    (fun _ => call "del" (Rejected "closed") [])
    (fun _ => call "exists" (Rejected "closed") [])
    (fun _ _ _ => call "hSet" (Rejected "closed") [])
    (fun _ _ => call "hGet" (Rejected "closed") [])
    (fun _ => call "hGetAll" (Rejected "closed") [])
    (fun _ _ => call "lPush" (Rejected "closed") [])
    (fun _ => call "lPop" (Rejected "closed") [])
    (fun _ _ _ => call "lRange" (Rejected "closed") [])
    (call "ping" (Rejected "closed") [])
    (call "flushAll" (Rejected "closed") []).

(** A server that answers but never acknowledges the end of the
    connection: as [healthy], except that [disconnect] rejects. *)
Definition stuck : RedisClient string State :=
  mkClient
    (client_connect healthy)
    (call "disconnect" (Rejected "ETIMEDOUT") [])
    (client_set healthy)
    (client_setEx healthy)
    (client_get healthy)
    (client_del healthy)
    (client_exists healthy)
    (client_hSet healthy)
    (client_hGet healthy)
    (client_hGetAll healthy)
    (client_lPush healthy)
    (client_lPop healthy)
    (client_lRange healthy)
    (client_ping healthy)
    (client_flushAll healthy).

(** [createClient]: a client that has received nothing yet. *)
Definition create (_ : ClientOptions) : string + State := inr [].

(** [createClient] that, as the library does, throws on a URL without a
    scheme it knows. *)
Definition create_checked (options : ClientOptions) : string + State :=
  if String.prefix "redis://" (url options) || String.prefix "rediss://" (url options)
  then inr []
  else inl "Invalid URL".

Definition fresh : World string State := mkWorld [] [] false.

End SampleClient.

(** ** Basic facts *)

Lemma retry_time_cap_eq : 1000 * 60 * 60 = retry_time_cap.
Proof. reflexivity. Qed.

Lemma refused_true_kind (s : RetryState) :
  refused s = true <-> error_kind s = ConnectionRefused.
Proof.
  unfold refused, error_kind, kind_of.
  destruct (error s) as [e|]; [destruct (code_is e "ECONNREFUSED")|];
    split; intro H; try reflexivity; discriminate H.
Qed.

Lemma refused_false_kind (s : RetryState) :
  refused s = false <-> error_kind s <> ConnectionRefused.
Proof.
  rewrite <- refused_true_kind.
  destruct (refused s); split; intro H; try reflexivity;
    try discriminate H; try (intro H'; discriminate H').
  exfalso; apply H; reflexivity.
Qed.

(** The returned value does not depend on the console the call starts from. *)
Lemma retry_strategy_outcome (s : RetryState) (w : Console) :
  fst (retry_strategy s w) = decide s.
Proof.
  unfold decide, retry_strategy.
  destruct (refused s); [reflexivity|].
  destruct (total_retry_time s >? 1000 * 60 * 60); [reflexivity|].
  destruct (attempt s >? 10); reflexivity.
Qed.

(** The rules in the order the callback tests them. *)
Lemma decide_rules (s : RetryState) :
  decide s =
    if refused s then Fatal "Redis server refused connection"
    else if total_retry_time s >? retry_time_cap then Fatal "Retry time exhausted"
    else if attempt s >? 10 then Fatal "Max retry attempts reached"
    else WaitThenRetry (Z.min (attempt s * 100) 3000).
Proof.
  unfold decide, retry_strategy. rewrite retry_time_cap_eq.
  destruct (refused s); [reflexivity|].
  destruct (total_retry_time s >? retry_time_cap); [reflexivity|].
  destruct (attempt s >? 10); reflexivity.
Qed.

Lemma decide_refused (s : RetryState) :
  refused s = true -> decide s = Fatal "Redis server refused connection".
Proof. intro H. rewrite decide_rules, H. reflexivity. Qed.

Lemma decide_exhausted (s : RetryState) :
  refused s = false -> total_retry_time s > retry_time_cap ->
  decide s = Fatal "Retry time exhausted".
Proof.
  intros Hr Ht. rewrite decide_rules, Hr.
  replace (total_retry_time s >? retry_time_cap) with true; [reflexivity|].
  symmetry. apply Z.gtb_lt. lia.
Qed.

Lemma decide_max_attempts (s : RetryState) :
  refused s = false -> total_retry_time s <= retry_time_cap ->
  attempt s > 10 ->
  decide s = Fatal "Max retry attempts reached".
Proof.
  intros Hr Ht Ha. rewrite decide_rules, Hr.
  replace (total_retry_time s >? retry_time_cap) with false
    by (symmetry; rewrite Z.gtb_ltb; apply Z.ltb_ge; lia).
  replace (attempt s >? 10) with true; [reflexivity|].
  symmetry. apply Z.gtb_lt. lia.
Qed.

Lemma decide_wait (s : RetryState) :
  refused s = false -> total_retry_time s <= retry_time_cap ->
  attempt s <= 10 ->
  decide s = WaitThenRetry (Z.min (attempt s * 100) 3000).
Proof.
  intros Hr Ht Ha. rewrite decide_rules, Hr.
  replace (total_retry_time s >? retry_time_cap) with false
    by (symmetry; rewrite Z.gtb_ltb; apply Z.ltb_ge; lia).
  replace (attempt s >? 10) with false; [reflexivity|].
  symmetry. rewrite Z.gtb_ltb. apply Z.ltb_ge. lia.
Qed.

(** Inversion of a retry decision. *)
Lemma decide_wait_inv (s : RetryState) (d : Z) :
  decide s = WaitThenRetry d ->
  refused s = false /\ total_retry_time s <= retry_time_cap /\
  attempt s <= 10 /\ d = Z.min (attempt s * 100) 3000.
Proof.
  rewrite decide_rules.
  destruct (refused s); [discriminate|].
  destruct (total_retry_time s >? retry_time_cap) eqn:Et; [discriminate|].
  destruct (attempt s >? 10) eqn:Ea; [discriminate|].
  intro H. injection H as <-.
  rewrite Z.gtb_ltb in Et, Ea. apply Z.ltb_ge in Et, Ea.
  repeat split; assumption.
Qed.

(** ** Sanity checks on concrete states *)

Example decide_first_attempt :
  decide (mkState 1 0 None) = WaitThenRetry 100.
Proof. reflexivity. Qed.

Example decide_tenth_attempt_timeout :
  decide (mkState 10 3600000 (Some etimedout)) = WaitThenRetry 1000.
Proof. reflexivity. Qed.

Example decide_uncoded_error :
  decide (mkState 4 250 (Some uncoded)) = WaitThenRetry 400.
Proof. reflexivity. Qed.

Example retry_strategy_logs_refusal :
  retry_strategy (mkState 1 0 (Some econnrefused)) ["earlier line"] =
  (Fatal "Redis server refused connection",
   ["earlier line"; "Redis server refused connection"]).
Proof. reflexivity. Qed.

Example retry_strategy_silent_otherwise :
  retry_strategy (mkState 11 0 None) ["earlier line"] =
  (Fatal "Max retry attempts reached", ["earlier line"]).
Proof. reflexivity. Qed.

(** ** The rules, one by one *)

(** C1.  With an attempt count between 1 and 10, a last error that is not a
    refused connection and at most one hour of cumulative retry time, the
    policy asks to wait [min (attempt * 100) 3000] milliseconds and retry. *)
Theorem decide_linear_backoff (s : RetryState) :
  1 <= attempt s <= 10 ->
  error_kind s <> ConnectionRefused ->
  total_retry_time s <= 3600000 ->
  decide s = WaitThenRetry (Z.min (attempt s * 100) 3000).
Proof.
  intros [_ Ha] Hk Ht.
  apply decide_wait; [apply refused_false_kind, Hk | exact Ht | exact Ha].
Qed.

Lemma decide_linear_backoff_witness :
  decide (mkState 3 5000 (Some etimedout)) = WaitThenRetry (Z.min (3 * 100) 3000).
Proof.
  apply (decide_linear_backoff (mkState 3 5000 (Some etimedout))).
  - simpl; lia.
  - vm_compute; discriminate.
  - simpl; lia.
Defined.

(** C2, as the specification words it, fails: the reason the callback gives
    for a refused connection is the text "Redis server refused connection",
    not "server refused connection". *)
Lemma refused_reason_text :
  error_kind (mkState 1 0 (Some econnrefused)) = ConnectionRefused /\
  decide (mkState 1 0 (Some econnrefused)) =
    Fatal "Redis server refused connection" /\
  decide (mkState 1 0 (Some econnrefused)) <>
    Fatal "server refused connection".
Proof. repeat split. vm_compute. discriminate. Qed.

(** C2, amended.  Whenever the last error is a refused connection the policy
    is fatal with reason "Redis server refused connection", whatever the
    attempt count and the elapsed time: the refusal test comes first. *)
Theorem decide_connection_refused (s : RetryState) :
  error_kind s = ConnectionRefused ->
  decide s = Fatal "Redis server refused connection".
Proof. intro Hk. apply decide_refused, refused_true_kind, Hk. Qed.

Lemma decide_connection_refused_witness :
  decide (mkState 1 0 (Some econnrefused)) =
    Fatal "Redis server refused connection".
Proof.
  apply (decide_connection_refused (mkState 1 0 (Some econnrefused))).
  reflexivity.
Defined.

(** C3, as the specification words it, fails: after more than one hour the
    reason the callback gives is the text "Retry time exhausted", with a
    capital R, not "retry time exhausted". *)
Lemma exhausted_reason_text :
  error_kind (mkState 1 3600001 None) <> ConnectionRefused /\
  decide (mkState 1 3600001 None) = Fatal "Retry time exhausted" /\
  decide (mkState 1 3600001 None) <> Fatal "retry time exhausted".
Proof. repeat split; vm_compute; discriminate. Qed.

(** C3, amended.  When the last error is not a refused connection and the
    cumulative retry time is strictly more than 3,600,000 ms, the policy is
    fatal with reason "Retry time exhausted"; so it is at 3,600,001 ms on
    the first attempt. *)
Theorem decide_retry_time_exhausted (s : RetryState) :
  error_kind s <> ConnectionRefused ->
  total_retry_time s > 3600000 ->
  decide s = Fatal "Retry time exhausted" /\
  decide (mkState 1 3600001 (error s)) = Fatal "Retry time exhausted".
Proof.
  intros Hk Ht. apply refused_false_kind in Hk. split.
  - apply decide_exhausted; [exact Hk | exact Ht].
  - apply decide_exhausted; [exact Hk | simpl; unfold retry_time_cap; lia].
Qed.

Lemma decide_retry_time_exhausted_witness :
  decide (mkState 1 3600001 None) = Fatal "Retry time exhausted".
Proof.
  apply (decide_retry_time_exhausted (mkState 1 3600001 None)).
  - vm_compute; discriminate.
  - simpl; lia.
Defined.

(** C4, as the specification words it, fails: on the eleventh attempt the
    outcome does depend on the elapsed time.  Past one hour the elapsed-time
    rule, which is tested first, gives the reason; it is not the outcome of
    the same attempt count with no time elapsed. *)
Lemma max_attempts_depends_on_elapsed :
  attempt (mkState 11 3600001 None) = 11 /\
  error_kind (mkState 11 3600001 None) <> ConnectionRefused /\
  decide (mkState 11 3600001 None) = Fatal "Retry time exhausted" /\
  decide (mkState 11 3600001 None) <> Fatal "max retry attempts reached" /\
  decide (mkState 11 3600001 None) <> decide (mkState 11 0 None).
Proof. repeat split; vm_compute; discriminate. Qed.

(** C4, amended.  With an attempt count above 10 and a last error that is
    not a refused connection, the policy is fatal with reason
    "Max retry attempts reached" as long as the elapsed time is at most
    3,600,000 ms; past that the elapsed-time rule wins and the reason is
    "Retry time exhausted". *)
Theorem decide_max_attempts_reached (s : RetryState) :
  attempt s > 10 ->
  error_kind s <> ConnectionRefused ->
  (total_retry_time s <= 3600000 ->
     decide s = Fatal "Max retry attempts reached") /\
  (total_retry_time s > 3600000 ->
     decide s = Fatal "Retry time exhausted").
Proof.
  intros Ha Hk. apply refused_false_kind in Hk. split; intro Ht.
  - apply decide_max_attempts; assumption.
  - apply decide_exhausted; assumption.
Qed.

Lemma decide_max_attempts_reached_witness :
  decide (mkState 11 0 (Some etimedout)) = Fatal "Max retry attempts reached".
Proof.
  apply (decide_max_attempts_reached (mkState 11 0 (Some etimedout))).
  - simpl; lia.
  - vm_compute; discriminate.
  - simpl; lia.
Defined.



(** ** Fatal outcomes and transient errors *)

(** C6.  The policy is fatal exactly when the connection was refused, the
    retry time is exhausted or the maximum of attempts is passed.  Any other
    transport error, with at most one hour elapsed and at most 10 attempts,
    is transient: the policy waits and retries. *)
Theorem fatal_iff_taxonomy (s : RetryState) :
  (is_fatal (decide s) = true <->
     error_kind s = ConnectionRefused \/
     total_retry_time s > retry_time_cap \/
     attempt s > 10) /\
  (error_kind s = OtherTransportError ->
   total_retry_time s <= retry_time_cap ->
   attempt s <= 10 ->
   decide s = WaitThenRetry (Z.min (attempt s * 100) 3000)).
Proof.
  split.
  - rewrite <- refused_true_kind, decide_rules.
    destruct (refused s); [split; auto|].
    destruct (total_retry_time s >? retry_time_cap) eqn:Et.
    + apply Z.gtb_lt in Et. split; [intros _; right; left; lia | reflexivity].
    + rewrite Z.gtb_ltb in Et. apply Z.ltb_ge in Et.
      destruct (attempt s >? 10) eqn:Ea.
      * apply Z.gtb_lt in Ea. split; [intros _; right; right; lia | reflexivity].
      * rewrite Z.gtb_ltb in Ea. apply Z.ltb_ge in Ea. simpl.
        split; [discriminate|].
        intros [H | [H | H]]; [discriminate H | lia | lia].
  - intros Hk Ht Ha. apply decide_wait; [|exact Ht|exact Ha].
    apply refused_false_kind. rewrite Hk. discriminate.
Qed.

Lemma fatal_iff_taxonomy_witness :
  decide (mkState 2 1000 (Some etimedout)) = WaitThenRetry (Z.min (2 * 100) 3000) /\
  is_fatal (decide (mkState 12 1000 (Some etimedout))) = true.
Proof.
  split.
  - apply (proj2 (fatal_iff_taxonomy (mkState 2 1000 (Some etimedout)))).
    + reflexivity.
    + unfold retry_time_cap; simpl; lia.
    + simpl; lia.
  - apply (proj1 (fatal_iff_taxonomy (mkState 12 1000 (Some etimedout)))).
    right; right. simpl; lia.
Defined.

(** C7, as the specification words it, fails: the callback is not a pure
    function.  On a refused connection a call changes the console, and a
    second call on the same state changes it again. *)
Lemma retry_strategy_not_pure :
  snd (retry_strategy (mkState 1 0 (Some econnrefused)) []) =
    ["Redis server refused connection"] /\
  snd (retry_strategy (mkState 1 0 (Some econnrefused)) []) <> [] /\
  snd (retry_strategy (mkState 1 0 (Some econnrefused))
         (snd (retry_strategy (mkState 1 0 (Some econnrefused)) []))) =
    ["Redis server refused connection"; "Redis server refused connection"].
Proof. repeat split. discriminate. Qed.

(** The console after a call, by the kind of the last error. *)
Lemma retry_strategy_effect (s : RetryState) (w : Console) :
  snd (retry_strategy s w) =
    match error_kind s with
    | ConnectionRefused => (w ++ ["Redis server refused connection"])%list
    | _ => w
    end.
Proof.
  unfold retry_strategy.
  destruct (refused s) eqn:Er.
  - apply refused_true_kind in Er. rewrite Er. reflexivity.
  - assert (Hw : snd ((if total_retry_time s >? 1000 * 60 * 60
                       then ret (Fatal "Retry time exhausted")
                       else if attempt s >? 10
                            then ret (Fatal "Max retry attempts reached")
                            else ret (WaitThenRetry
                                        (Z.min (attempt s * 100) 3000))) w) = w).
    { destruct (total_retry_time s >? 1000 * 60 * 60); [reflexivity|].
      destruct (attempt s >? 10); reflexivity. }
    rewrite Hw. apply refused_false_kind in Er.
    destruct (error_kind s); [contradiction | reflexivity | reflexivity].
Qed.

(** C7, amended.  The outcome is deterministic: it is the same whatever the
    console holds when the callback is called, and a second call on the
    same state returns what the first returned; there is no randomness and
    nothing hidden is read.  The callback is not pure: a call on a state
    whose last error is a refused connection appends the line
    "Redis server refused connection" to the console; a call on any other
    state has no effect. *)
Theorem outcome_deterministic_one_effect (s : RetryState) (w w' : Console) :
  fst (retry_strategy s w) = fst (retry_strategy s w') /\
  fst (retry_strategy s (snd (retry_strategy s w))) = fst (retry_strategy s w) /\
  snd (retry_strategy s w) =
    match error_kind s with
    | ConnectionRefused => (w ++ ["Redis server refused connection"])%list
    | _ => w
    end.
Proof.
  split; [|split].
  - rewrite !retry_strategy_outcome. reflexivity.
  - rewrite !retry_strategy_outcome. reflexivity.
  - apply retry_strategy_effect.
Qed.

(** ** The delay *)

(** C8.  Whenever the policy asks to wait, the delay is exactly
    [attempt * 100] ms and at most 1000 ms: the 3000 ms cap is never the
    value [min] selects. *)
Theorem delay_is_linear (s : RetryState) (d : Z) :
  decide s = WaitThenRetry d ->
  d = attempt s * 100 /\ d <= 1000 /\ attempt s * 100 < 3000 /\ d <> 3000.
Proof.
  intro H. apply decide_wait_inv in H. destruct H as (_ & _ & Ha & ->).
  rewrite Z.min_l by lia. lia.
Qed.

Lemma delay_is_linear_witness :
  700 = attempt (mkState 7 0 None) * 100 /\ 700 <= 1000 /\
  attempt (mkState 7 0 None) * 100 < 3000 /\ 700 <> 3000.
Proof.
  apply (delay_is_linear (mkState 7 0 None) 700). reflexivity.
Defined.

(** The delay does not decrease with the attempt count, between any two
    states on which the policy asks to wait. *)
Lemma delay_monotone_states (s1 s2 : RetryState) (d1 d2 : Z) :
  attempt s1 <= attempt s2 ->
  decide s1 = WaitThenRetry d1 ->
  decide s2 = WaitThenRetry d2 ->
  d1 <= d2.
Proof.
  intros Hle H1 H2.
  apply decide_wait_inv in H1. destruct H1 as (_ & _ & _ & ->).
  apply decide_wait_inv in H2. destruct H2 as (_ & _ & _ & ->).
  apply Z.min_le_compat_r. lia.
Qed.

(** C9.  The delay is monotonically non-decreasing in the attempt count: for
    the same last error and elapsed time, if the policy asks to wait at
    attempt counts [a1 <= a2], the delay at [a1] is at most the delay at
    [a2]. *)
Theorem delay_monotone (t : Z) (err : option RedisError) (a1 a2 d1 d2 : Z) :
  a1 <= a2 ->
  decide (mkState a1 t err) = WaitThenRetry d1 ->
  decide (mkState a2 t err) = WaitThenRetry d2 ->
  d1 <= d2.
Proof.
  intros Hle H1 H2.
  apply (delay_monotone_states (mkState a1 t err) (mkState a2 t err));
    [exact Hle | exact H1 | exact H2].
Qed.

Lemma delay_monotone_witness : 200 <= 900.
Proof.
  apply (delay_monotone 1500 (Some etimedout) 2 9 200 900).
  - lia.
  - reflexivity.
  - reflexivity.
Defined.

(** C10.  In the initial state, attempt count 0, with a last error that is
    not a refused connection and the elapsed time at most the cap, the
    policy asks for a delay of 0 ms: an immediate retry. *)
Theorem decide_initial_state (t : Z) (err : option RedisError) :
  kind_of err <> ConnectionRefused ->
  t <= retry_time_cap ->
  decide (mkState 0 t err) = WaitThenRetry 0.
Proof.
  intros Hk Ht.
  rewrite decide_wait; [reflexivity | | exact Ht | simpl; lia].
  apply refused_false_kind. exact Hk.
Qed.

Lemma decide_initial_state_witness :
  decide (mkState 0 0 None) = WaitThenRetry 0.
Proof.
  apply (decide_initial_state 0 None).
  - vm_compute; discriminate.
  - unfold retry_time_cap; lia.
Defined.


(** * Further properties of the reconnect policy *)

(** X1.  The callback writes to the console only for a refused connection:
    it then appends the one line "Redis server refused connection" and
    keeps every earlier line; on every other branch the console is left as
    it was. *)
Theorem retry_strategy_console (s : RetryState) (w : Console) :
  snd (retry_strategy s w) =
    if refused s then (w ++ ["Redis server refused connection"])%list else w.
Proof.
  unfold retry_strategy.
  destruct (refused s); [reflexivity|].
  destruct (total_retry_time s >? 1000 * 60 * 60); [reflexivity|].
  destruct (attempt s >? 10); reflexivity.
Qed.

(** X2.  The policy gives up for a refusal exactly when an error is
    present and its code is the string "ECONNREFUSED", character for
    character.  An error without a code, or with any other code, is treated
    as no error is: under both thresholds it is retried after
    [attempt * 100] ms. *)
Theorem refusal_needs_exact_code (s : RetryState) :
  (decide s = Fatal "Redis server refused connection" <->
     exists e, error s = Some e /\ code e = Some "ECONNREFUSED") /\
  (forall e, error s = Some e -> code e <> Some "ECONNREFUSED" ->
     decide s = decide (mkState (attempt s) (total_retry_time s) None) /\
     (total_retry_time s <= retry_time_cap -> attempt s <= 10 ->
      decide s = WaitThenRetry (attempt s * 100))).
Proof.
  assert (Hiff : refused s = true <->
                 exists e, error s = Some e /\ code e = Some "ECONNREFUSED").
  { unfold refused, code_is. split.
    - destruct (error s) as [e|]; [|discriminate].
      destruct (code e) as [c|] eqn:Ec; [|discriminate].
      intro H. apply String.eqb_eq in H. subst c.
      exists e. split; [reflexivity | exact Ec].
    - intros (e & -> & ->). apply String.eqb_refl. }
  split.
  - rewrite <- Hiff, decide_rules.
    destruct (refused s); [split; reflexivity|].
    destruct (total_retry_time s >? retry_time_cap);
      [split; discriminate|].
    destruct (attempt s >? 10); split; discriminate.
  - intros e He Hc.
    assert (Hr : refused s = false).
    { destruct (refused s) eqn:Er; [|reflexivity].
      destruct (proj1 Hiff eq_refl) as (e' & He' & Hc').
      rewrite He in He'. injection He' as <-. contradiction. }
    split.
    + rewrite !decide_rules, Hr. reflexivity.
    + intros Ht Ha. rewrite (decide_wait s Hr Ht Ha).
      rewrite Z.min_l by lia. reflexivity.
Qed.

Lemma refusal_needs_exact_code_witness :
  decide (mkState 3 0 (Some (mkError (Some "econnrefused")))) =
    decide (mkState 3 0 None) /\
  decide (mkState 3 0 (Some (mkError (Some "econnrefused")))) =
    WaitThenRetry (3 * 100).
Proof.
  destruct (proj2 (refusal_needs_exact_code
                     (mkState 3 0 (Some (mkError (Some "econnrefused")))))
                  (mkError (Some "econnrefused")) eq_refl) as [H1 H2].
  - discriminate.
  - split; [exact H1|]. apply H2.
    + unfold retry_time_cap; simpl; lia.
    + simpl; lia.
Defined.

(** X3.  Between two states on which the policy asks to wait, the delays
    differ by exactly 100 ms per attempt: a later attempt waits strictly
    longer, and the cap never flattens the backoff. *)
Theorem delay_step (s1 s2 : RetryState) (d1 d2 : Z) :
  attempt s1 < attempt s2 ->
  decide s1 = WaitThenRetry d1 ->
  decide s2 = WaitThenRetry d2 ->
  d2 - d1 = (attempt s2 - attempt s1) * 100 /\ d1 < d2.
Proof.
  intros Hlt H1 H2.
  apply decide_wait_inv in H1. destruct H1 as (_ & _ & Ha1 & ->).
  apply decide_wait_inv in H2. destruct H2 as (_ & _ & Ha2 & ->).
  rewrite !Z.min_l by lia. lia.
Qed.

Lemma delay_step_witness :
  900 - 200 = (attempt (mkState 9 60000 (Some etimedout)) -
               attempt (mkState 2 0 None)) * 100 /\ 200 < 900.
Proof.
  apply (delay_step (mkState 2 0 None) (mkState 9 60000 (Some etimedout))).
  - simpl; lia.
  - reflexivity.
  - reflexivity.
Defined.

(** X4.  The reason of a fatal outcome tells which rule fired.  There are
    three reasons; each is returned on exactly the states of its rule, the
    earlier rules having failed. *)
Theorem fatal_reason_identifies_rule (s : RetryState) :
  (decide s = Fatal "Redis server refused connection" <-> refused s = true) /\
  (decide s = Fatal "Retry time exhausted" <->
     refused s = false /\ total_retry_time s > retry_time_cap) /\
  (decide s = Fatal "Max retry attempts reached" <->
     refused s = false /\ total_retry_time s <= retry_time_cap /\
     attempt s > 10) /\
  (forall r, decide s = Fatal r ->
     r = "Redis server refused connection" \/
     r = "Retry time exhausted" \/
     r = "Max retry attempts reached").
Proof.
  rewrite decide_rules.
  destruct (refused s) eqn:Er;
    [|destruct (total_retry_time s >? retry_time_cap) eqn:Et;
      [apply Z.gtb_lt in Et
      |rewrite Z.gtb_ltb in Et; apply Z.ltb_ge in Et;
       destruct (attempt s >? 10) eqn:Ea;
       [apply Z.gtb_lt in Ea
       |rewrite Z.gtb_ltb in Ea; apply Z.ltb_ge in Ea]]];
    (split; [|split; [|split]]);
    try (split; intro H; first [discriminate H | reflexivity | lia
                               | destruct H as [H ?]; discriminate H
                               | split; [reflexivity | lia]
                               | split; [reflexivity | split; lia]]);
    try (intros r H; first [discriminate H | injection H as <-; auto]).
Qed.

(** * The connection status kept by RedisManager *)

Section ManagerEvents.

Import RedisManager.

Context {Thrown ClientState : Type}.
Variable this_client : RedisClient Thrown ClientState.

Implicit Types (w : World Thrown ClientState) (evs : list (ClientEvent Thrown)).

Lemma handle_events_app evs1 evs2 w :
  handle_events (evs1 ++ evs2) w = handle_events evs2 (handle_events evs1 w).
Proof. unfold handle_events. apply fold_left_app. Qed.

Lemma handle_events_client evs w :
  client (handle_events evs w) = client w.
Proof.
  revert w. induction evs as [|ev evs IH]; intro w; [reflexivity|].
  change (handle_events (ev :: evs) w) with (handle_events evs (on_event ev w)).
  rewrite IH. destruct ev; reflexivity.
Qed.

(** X5.  After any sequence of client events, [getConnectionStatus] is true
    exactly when the last event other than ['ready'] was ['connect'];
    ['error'] and ['end'] both bring it back to false, ['ready'] never
    changes it, and with no such event it keeps its earlier value. *)
Theorem status_after_events evs w :
  getConnectionStatus (handle_events evs w) =
    match last (map Some (filter assigns_status evs)) None with
    | Some EvConnect => true
    | Some _ => false
    | None => getConnectionStatus w
    end.
Proof.
  revert w. induction evs as [|ev evs IH] using rev_ind; intro w.
  - reflexivity.
  - rewrite handle_events_app, filter_app, map_app.
    change (handle_events [ev] (handle_events evs w))
      with (on_event ev (handle_events evs w)).
    destruct ev; simpl filter; simpl map;
      rewrite ?last_last, ?app_nil_r; try reflexivity.
    simpl. apply IH.
Qed.

(** X6.  Each event makes its listener print exactly one entry, after the
    entries already there, on the error stream for ['error'] and on the
    standard stream otherwise; the listeners never touch the client. *)
Theorem events_console evs w :
  exists entries,
    console (handle_events evs w) = (console w ++ entries)%list /\
    Forall2 (fun ev entry =>
               stream entry = if is_error_event ev then Stderr else Stdout)
            evs entries /\
    client (handle_events evs w) = client w.
Proof.
  revert w. induction evs as [|ev evs IH]; intro w.
  - exists []. simpl. rewrite app_nil_r. repeat split. constructor.
  - change (handle_events (ev :: evs) w) with (handle_events evs (on_event ev w)).
    destruct (IH (on_event ev w)) as (entries & Hc & Hs & Hcl).
    destruct ev; simpl in Hc, Hcl; rewrite <- app_assoc in Hc;
      eexists; (split; [exact Hc | split; [|exact Hcl]]);
      constructor; try reflexivity; exact Hs.
Qed.

(** X7.  Once the last event is ['error'] or ['end'], [disconnect] does
    nothing: it resolves without calling the client and without printing,
    whatever happened before. *)
Theorem disconnect_after_error_or_end evs ev w :
  ev = EvEnd \/ (exists err, ev = EvError err) ->
  disconnect this_client (handle_events (evs ++ [ev]) w) =
    (Resolved tt, handle_events (evs ++ [ev]) w).
Proof.
  intro Hev. unfold disconnect.
  replace (isConnected (handle_events (evs ++ [ev]) w)) with false; [reflexivity|].
  rewrite handle_events_app.
  destruct Hev as [-> | [err ->]]; reflexivity.
Qed.

(** While the status is true, [disconnect] is the client's [disconnect]: it
    settles as the client does, and the listeners handle the events of the
    call. *)
Lemma disconnect_when_connected w :
  getConnectionStatus w = true ->
  fst (disconnect this_client w) = fst (fst (client_disconnect this_client (client w))) /\
  client (snd (disconnect this_client w)) =
    snd (client_disconnect this_client (client w)).
Proof.
  unfold getConnectionStatus, disconnect, await. intros ->.
  destruct (client_disconnect this_client (client w)) as [[r evs] c'].
  simpl. split; [reflexivity|]. apply handle_events_client.
Qed.

End ManagerEvents.

Lemma disconnect_after_error_or_end_witness :
  RedisManager.disconnect SampleClient.healthy
    (RedisManager.handle_events
       ([RedisManager.EvConnect; RedisManager.EvReady] ++
        [RedisManager.EvError "ECONNRESET"]) SampleClient.fresh) =
  (RedisManager.Resolved tt,
   RedisManager.handle_events
       ([RedisManager.EvConnect; RedisManager.EvReady] ++
        [RedisManager.EvError "ECONNRESET"]) SampleClient.fresh).
Proof.
  apply (disconnect_after_error_or_end SampleClient.healthy).
  right. exists "ECONNRESET". reflexivity.
Defined.

(** * The command wrappers of RedisManager *)

Section ManagerCommands.

Import RedisManager.

Context {Thrown ClientState : Type}.
Variable this_client : RedisClient Thrown ClientState.

Implicit Types (w : World Thrown ClientState) (key field value : string).

(** The shape shared by the wrappers: await the command, print, return the
    value; on an error print it and throw it again. *)
Lemma try_await_log {A : Type} (command : Await Thrown ClientState A)
    (line : A -> list (JsValue Thrown)) (eline : Thrown -> list (JsValue Thrown)) w :
  try_catch
    (x <- await command ;; console_log (line x) >> mret x)
    (fun error => console_error (eline error) >> throw error) w =
  match settlement command w with
  | Resolved a => (Resolved a, print Stdout (line a) (after_command command w))
  | Rejected e => (Rejected e, print Stderr (eline e) (after_command command w))
  end.
Proof.
  unfold try_catch, mbind, await, settlement, after_command.
  destruct (command (client w)) as [[[a|e] evs] c']; reflexivity.
Qed.

Lemma passes_through_intro {A : Type} (command : Await Thrown ClientState A)
    (line : A -> list (JsValue Thrown)) (eline : Thrown -> list (JsValue Thrown)) w :
  (forall e, last (eline e) VUndefined = VThrown e) ->
  passes_through
    (try_catch
       (x <- await command ;; console_log (line x) >> mret x)
       (fun error => console_error (eline error) >> throw error))
    command w.
Proof.
  intro Hlast. unfold passes_through. rewrite try_await_log.
  destruct (settlement command w) as [a|e]; simpl.
  - split; [reflexivity|]. exists (mkEntry Stdout (line a)). split; reflexivity.
  - split; [reflexivity|]. exists (mkEntry Stderr (eline e)).
    repeat split. apply Hlast.
Qed.

(** X8.  [get] and [delete] pass the client's [get] and [del] through: one
    call, the client's value or the client's error unchanged, one entry
    printed, on the error stream exactly when the command failed. *)
Theorem string_wrappers_pass_through key w :
  passes_through (get this_client key) (client_get this_client key) w /\
  passes_through (delete this_client key) (client_del this_client key) w.
Proof.
  split; apply passes_through_intro; reflexivity.
Qed.

(** X9.  [hSet], [hGet] and [hGetAll] pass the client's commands through in
    the same way. *)
Theorem hash_wrappers_pass_through key field value w :
  passes_through (hSet this_client key field value)
    (client_hSet this_client key field value) w /\
  passes_through (hGet this_client key field)
    (client_hGet this_client key field) w /\
  passes_through (hGetAll this_client key) (client_hGetAll this_client key) w.
Proof.
  repeat split; apply passes_through_intro; reflexivity.
Qed.

(** X10.  [lPush] and [lPop] pass the client's commands through, and so
    does [lRange] with the bounds it is given; with both bounds omitted it
    asks the client for the range from 0 to -1, the whole list. *)
Theorem list_wrappers_pass_through key (values : list string) (start stop : Z) w :
  passes_through (lPush this_client key values)
    (client_lPush this_client key values) w /\
  passes_through (lPop this_client key) (client_lPop this_client key) w /\
  passes_through (lRange this_client key (Some start) (Some stop))
    (client_lRange this_client key start stop) w /\
  passes_through (lRange this_client key None None)
    (client_lRange this_client key 0 (-1)) w.
Proof.
  repeat split; apply passes_through_intro; reflexivity.
Qed.

(** X11.  [ping] and [flushAll] pass the client's commands through. *)
Theorem utility_wrappers_pass_through w :
  passes_through (ping this_client) (client_ping this_client) w /\
  passes_through (flushAll this_client) (client_flushAll this_client) w.
Proof.
  split; apply passes_through_intro; reflexivity.
Qed.

End ManagerCommands.

Section ManagerEdges.

Import RedisManager.

Context {Thrown ClientState : Type}.
Variable this_client : RedisClient Thrown ClientState.

Implicit Types (w : World Thrown ClientState) (key field value : string).

(** X12.  [set] chooses the client command by the truthiness of the
    expiry: with a non-zero number of seconds, negative ones included, it
    sends [setEx] with that number; with the expiry omitted or equal to 0
    it sends the plain [set], which stores the key without expiry.  In both
    cases it settles as the command does. *)
Theorem set_expiry_choice key value (n : Z) w :
  (n <> 0 ->
   fst (set this_client key value (Some n) w) =
     forget (settlement (client_setEx this_client key n value) w) /\
   client (snd (set this_client key value (Some n) w)) =
     snd (client_setEx this_client key n value (client w))) /\
  set this_client key value (Some 0) w = set this_client key value None w /\
  fst (set this_client key value None w) =
    forget (settlement (client_set this_client key value) w) /\
  client (snd (set this_client key value None w)) =
    snd (client_set this_client key value (client w)).
Proof.
  unfold set, try_catch, mbind, await, settlement, truthy_number.
  split; [intro Hn | split; [reflexivity|]].
  - replace (n =? 0)%Z with false by (symmetry; apply Z.eqb_neq; exact Hn).
    simpl.
    destruct (client_setEx this_client key n value (client w)) as [[[a|e] evs] c'];
      simpl; rewrite handle_events_client; split; reflexivity.
  - destruct (client_set this_client key value (client w)) as [[[a|e] evs] c'];
      simpl; rewrite handle_events_client; split; reflexivity.
Qed.

(** X13.  [exists] answers true exactly when the client's count is 1, and
    false for every other count; when the command resolves it prints
    nothing, and when it rejects it throws the same error again. *)
Theorem exists_counts_one key w :
  (forall n, settlement (client_exists this_client key) w = Resolved n ->
     exists_ this_client key w =
       (Resolved (n =? 1)%Z, after_command (client_exists this_client key) w)) /\
  (fst (exists_ this_client key w) = Resolved true <->
     settlement (client_exists this_client key) w = Resolved 1) /\
  (forall e, fst (exists_ this_client key w) = Rejected e <->
     settlement (client_exists this_client key) w = Rejected e).
Proof.
  unfold exists_, try_catch, mbind, await, settlement, after_command, mret.
  destruct (client_exists this_client key (client w)) as [[[n|e] evs] c']; simpl.
  - split; [intros n' H; injection H as <-; reflexivity|].
    split; [|intro e; split; discriminate].
    split; intro H.
    + injection H as H. apply Z.eqb_eq in H. subst n. reflexivity.
    + injection H as ->. reflexivity.
  - split; [intros n H; discriminate H|].
    split; [split; discriminate|].
    intro e'. split; intro H; injection H as <-; reflexivity.
Qed.

(** X14.  [connect] settles as the client's [connect] does.  It prints
    nothing of its own when the connection succeeds; when it fails it
    prints one entry on the error stream and throws the same error again. *)
Theorem connect_rethrows w :
  fst (connect this_client w) = settlement (client_connect this_client) w /\
  snd (connect this_client w) =
    match settlement (client_connect this_client) w with
    | Resolved _ => after_command (client_connect this_client) w
    | Rejected e =>
        print Stderr [VStr "Failed to connect to Redis:"; VThrown e]
          (after_command (client_connect this_client) w)
    end.
Proof.
  unfold connect, try_catch, mbind, await, settlement, after_command.
  destruct (client_connect this_client (client w)) as [[[[]|e] evs] c'];
    split; reflexivity.
Qed.

End ManagerEdges.

Lemma set_expiry_choice_witness :
  RedisManager.client
    (snd (RedisManager.set SampleClient.healthy "k" "v" (Some (-5))
            SampleClient.fresh)) = ["setEx"] /\
  RedisManager.client
    (snd (RedisManager.set SampleClient.healthy "k" "v" (Some 0)
            SampleClient.fresh)) = ["set"].
Proof.
  split.
  - apply (proj1 (set_expiry_choice SampleClient.healthy "k" "v" (-5)
                    SampleClient.fresh)).
    lia.
  - rewrite (proj1 (proj2 (set_expiry_choice SampleClient.healthy "k" "v" (-5)
                             SampleClient.fresh))).
    reflexivity.
Defined.

Lemma exists_counts_one_witness :
  RedisManager.exists_ SampleClient.healthy "greeting" SampleClient.fresh =
  (RedisManager.Resolved true,
   RedisManager.after_command
     (RedisManager.client_exists SampleClient.healthy "greeting")
     SampleClient.fresh).
Proof.
  apply (proj1 (exists_counts_one SampleClient.healthy "greeting"
                  SampleClient.fresh) 1).
  reflexivity.
Defined.

(** * The demo script and [main] *)

Section Script.

Import RedisManager.

Context {Thrown ClientState : Type}.
Variable createClient : ClientOptions -> Thrown + ClientState.
Variable this_client : RedisClient Thrown ClientState.

Implicit Types (w : World Thrown ClientState) (out : list (LogEntry Thrown)).

(** The [catch] of the demo prints and does not throw: whatever the steps
    do, the [try ... catch] resolves. *)
Lemma demo_guarded_resolves w :
  fst (demo_guarded this_client w) = Resolved tt.
Proof.
  unfold demo_guarded, try_catch.
  destruct (demo_steps this_client w) as [[[]|e] w']; reflexivity.
Qed.

(** [disconnect] settles as the client's [disconnect] when the status is
    true, and resolves otherwise. *)
Lemma disconnect_settles w :
  fst (disconnect this_client w) =
    if isConnected w then settlement (client_disconnect this_client) w
    else Resolved tt.
Proof.
  unfold disconnect, await, settlement.
  destruct (isConnected w); [|reflexivity].
  destruct (client_disconnect this_client (client w)) as [[r evs] c'].
  reflexivity.
Qed.

(** When the constructor throws, nothing else happens. *)
Lemma demo_constructor_throws (REDIS_URL : option string) out (e : Thrown) :
  createClient (mkOptions (redis_url REDIS_URL) retry_strategy) = inl e ->
  demonstrateRedisOperations createClient this_client REDIS_URL out =
    (Rejected e, NoManager out).
Proof.
  intro Hc. unfold demonstrateRedisOperations, constructor.
  rewrite Hc. reflexivity.
Qed.

(** When the manager is built, the demo settles as its final [disconnect]
    does. *)
Lemma demo_manager_built (REDIS_URL : option string) out (c0 : ClientState) :
  createClient (mkOptions (redis_url REDIS_URL) retry_strategy) = inr c0 ->
  demonstrateRedisOperations createClient this_client REDIS_URL out =
    (fst (disconnect this_client (at_finally this_client c0 out)),
     WithManager (snd (disconnect this_client (at_finally this_client c0 out)))).
Proof.
  intro Hc. unfold demonstrateRedisOperations, constructor, at_finally.
  rewrite Hc. unfold try_finally.
  pose proof (demo_guarded_resolves (mkWorld c0 out false)) as Hb.
  destruct (demo_guarded this_client (mkWorld c0 out false)) as [r w'].
  simpl in Hb. subst r. simpl.
  destruct (disconnect this_client w') as [[[]|e] w'']; reflexivity.
Qed.



(** X17.  [main] ends the process only with code 1, and in exactly two
    cases: [new RedisManager()] threw, before the [try] of the demo; or the
    manager was built, its status was true when the [finally] started, and
    the client's [disconnect], called there, rejected.  The last entry
    printed is then "Application failed:" with that error, on the error
    stream. *)
Theorem main_exit_cause (REDIS_URL : option string) out (code : Z) :
  fst (main createClient this_client REDIS_URL out) = Exited code <->
  code = 1 /\
  exists e,
    last (final_console (snd (main createClient this_client REDIS_URL out)))
         (mkEntry Stdout []) =
      mkEntry Stderr [VStr "Application failed:"; VThrown e] /\
    (createClient (mkOptions (redis_url REDIS_URL) retry_strategy) = inl e \/
     exists c0,
       createClient (mkOptions (redis_url REDIS_URL) retry_strategy) = inr c0 /\
       getConnectionStatus
         (at_finally this_client c0
            (out ++ [mkEntry Stdout [VStr banner_start];
                     mkEntry Stdout [VStr banner_rule]])) = true /\
       settlement (client_disconnect this_client)
         (at_finally this_client c0
            (out ++ [mkEntry Stdout [VStr banner_start];
                     mkEntry Stdout [VStr banner_rule]])) = Rejected e).
Proof.
  unfold main, getConnectionStatus.
  set (out' := (out ++ [mkEntry Stdout [VStr banner_start];
                        mkEntry Stdout [VStr banner_rule]])%list).
  destruct (createClient (mkOptions (redis_url REDIS_URL) retry_strategy))
    as [e|c0] eqn:Hc.
  - rewrite (demo_constructor_throws REDIS_URL out' e Hc). simpl. split.
    + intro H. injection H as <-. split; [reflexivity|].
      exists e. split; [apply last_last | left; reflexivity].
    + intros [-> _]. reflexivity.
  - rewrite (demo_manager_built REDIS_URL out' c0 Hc).
    set (wf := at_finally this_client c0 out').
    pose proof (disconnect_settles wf) as Hs.
    destruct (disconnect this_client wf) as [r w']. simpl in Hs. subst r.
    destruct (isConnected wf) eqn:Ei.
    + destruct (settlement (client_disconnect this_client) wf) as [[]|e] eqn:Es;
        simpl; split.
      * discriminate.
      * intros (_ & e & _ & [H | (c & Hcc & _ & H)]); [discriminate H|].
        injection Hcc as <-. unfold wf in Es. congruence.
      * intro H. injection H as <-. split; [reflexivity|].
        exists e. split; [apply last_last|].
        right. exists c0. split; [reflexivity|]. split; [exact Ei | exact Es].
      * intros [-> _]. reflexivity.
    + simpl. split; [discriminate|].
      intros (_ & e & _ & [H | (c & Hcc & H & _)]); [discriminate H|].
      injection Hcc as <-. unfold wf in Ei. congruence.
Qed.

Lemma no_connect_event_keeps_false (evs : list (ClientEvent Thrown)) w :
  ~ In EvConnect evs ->
  isConnected w = false ->
  isConnected (handle_events evs w) = false.
Proof.
  revert w. induction evs as [|ev evs IH]; intros w Hn Hw; [exact Hw|].
  change (handle_events (ev :: evs) w) with (handle_events evs (on_event ev w)).
  apply IH.
  - intro Hin. apply Hn. right. exact Hin.
  - destruct ev; try reflexivity; [|exact Hw].
    exfalso. apply Hn. left. reflexivity.
Qed.

(** X18.  When the manager is built, the first [connect] rejects and no
    ['connect'] event came with it, [main] sends nothing more to the
    client, not even [disconnect]; it prints the error twice on the error
    stream, as "Failed to connect to Redis:" and as "Demo failed:", then
    the line of success, and returns normally. *)
Theorem main_when_connect_fails (REDIS_URL : option string) out
    (e : Thrown) (evs : list (ClientEvent Thrown)) (c0 c1 : ClientState) :
  createClient (mkOptions (redis_url REDIS_URL) retry_strategy) = inr c0 ->
  client_connect this_client c0 = (Rejected e, evs, c1) ->
  ~ In EvConnect evs ->
  main createClient this_client REDIS_URL out =
    (Completed,
     WithManager
       (print Stdout [VStr banner_done]
          (print Stderr [VStr "Demo failed:"; VThrown e]
             (print Stderr [VStr "Failed to connect to Redis:"; VThrown e]
                (handle_events evs
                   (mkWorld c1
                      (out ++ [mkEntry Stdout [VStr banner_start];
                               mkEntry Stdout [VStr banner_rule]])
                      false)))))) /\
  final_client (snd (main createClient this_client REDIS_URL out)) = Some c1.
Proof.
  intros Hcreate Hconn Hevs.
  set (out' := (out ++ [mkEntry Stdout [VStr banner_start];
                        mkEntry Stdout [VStr banner_rule]])%list).
  set (w1 := handle_events evs (mkWorld c1 out' false)).
  assert (Hc : connect this_client (mkWorld c0 out' false) =
               (Rejected e,
                print Stderr [VStr "Failed to connect to Redis:"; VThrown e] w1)).
  { unfold connect, try_catch, await. simpl client.
    rewrite Hconn. reflexivity. }
  assert (Hs : isConnected w1 = false)
    by (apply no_connect_event_keeps_false; [exact Hevs | reflexivity]).
  assert (Hm : main createClient this_client REDIS_URL out =
    (Completed,
     WithManager
       (print Stdout [VStr banner_done]
          (print Stderr [VStr "Demo failed:"; VThrown e]
             (print Stderr [VStr "Failed to connect to Redis:"; VThrown e] w1))))).
  { assert (Haf : at_finally this_client c0 out' =
                  print Stderr [VStr "Demo failed:"; VThrown e]
                    (print Stderr
                       [VStr "Failed to connect to Redis:"; VThrown e] w1)).
    { unfold at_finally, demo_guarded, try_catch, demo_steps.
      unfold mbind at 1. rewrite Hc. reflexivity. }
    unfold main. fold out'.
    rewrite (demo_manager_built REDIS_URL out' c0 Hcreate), Haf.
    unfold disconnect. simpl isConnected. rewrite Hs. reflexivity. }
  split; [exact Hm|].
  rewrite Hm. simpl. unfold w1. rewrite handle_events_client. reflexivity.
Qed.

End Script.

(** X19.  The URL given to [createClient] is never empty: a REDIS_URL that
    is unset or empty gives "redis://localhost:6379", and any other value
    is used as it is. *)
Theorem redis_url_fallback (REDIS_URL : option string) :
  RedisManager.redis_url REDIS_URL <> "" /\
  (forall u, REDIS_URL = Some u -> u <> "" ->
     RedisManager.redis_url REDIS_URL = u) /\
  RedisManager.redis_url None = "redis://localhost:6379" /\
  RedisManager.redis_url (Some "") = "redis://localhost:6379".
Proof.
  repeat split.
  - destruct REDIS_URL as [[|a u]|]; discriminate.
  - intros u -> Hu. destruct u; [contradiction|reflexivity].
Qed.

Lemma redis_url_fallback_witness :
  RedisManager.redis_url (Some "redis://cache:6380") = "redis://cache:6380".
Proof.
  apply (proj1 (proj2 (redis_url_fallback (Some "redis://cache:6380")))).
  - reflexivity.
  - discriminate.
Defined.



Lemma main_exit_cause_witness :
  fst (RedisManager.main SampleClient.create_checked SampleClient.healthy
         (Some "localhost") []) = RedisManager.Exited 1 /\
  fst (RedisManager.main SampleClient.create SampleClient.stuck None []) =
    RedisManager.Exited 1.
Proof.
  split.
  - apply (proj2 (main_exit_cause SampleClient.create_checked
                    SampleClient.healthy (Some "localhost") [] 1)).
    split; [reflexivity|]. exists "Invalid URL".
    split; [reflexivity | left; reflexivity].
  - apply (proj2 (main_exit_cause SampleClient.create SampleClient.stuck
                    None [] 1)).
    split; [reflexivity|]. exists "ETIMEDOUT".
    split; [reflexivity|]. right. exists []. repeat split.
Defined.

Lemma main_when_connect_fails_witness :
  RedisManager.final_client
    (snd (RedisManager.main SampleClient.create SampleClient.down None [])) =
  Some ["connect"].
Proof.
  apply (main_when_connect_fails SampleClient.create SampleClient.down None []
           "ECONNREFUSED" [RedisManager.EvError "ECONNREFUSED"] [] ["connect"]).
  - reflexivity.
  - reflexivity.
  - intros [H | []]. discriminate H.
Defined.

(** ** The script on the sample clients *)

Example healthy_run_commands :
  RedisManager.final_client
    (snd (RedisManager.main SampleClient.create SampleClient.healthy None [])) =
  Some ["connect"; "setEx"; "get"; "hSet"; "hSet"; "hSet"; "hGet"; "hGetAll";
        "lPush"; "lRange"; "lPop"; "ping"; "exists"; "disconnect"].
Proof. reflexivity. Qed.

Example stuck_run_exits :
  fst (RedisManager.main SampleClient.create SampleClient.stuck None []) =
  RedisManager.Exited 1.
Proof. reflexivity. Qed.

Example malformed_url_run :
  RedisManager.main SampleClient.create_checked SampleClient.healthy
    (Some "localhost") [] =
  (RedisManager.Exited 1,
   RedisManager.NoManager
     [RedisManager.mkEntry RedisManager.Stdout
        [RedisManager.VStr RedisManager.banner_start];
      RedisManager.mkEntry RedisManager.Stdout
        [RedisManager.VStr RedisManager.banner_rule];
      RedisManager.mkEntry RedisManager.Stderr
        [RedisManager.VStr "Application failed:";
         RedisManager.VThrown "Invalid URL"]]).
Proof. reflexivity. Qed.

Example set_logs_key_and_value :
  RedisManager.console
    (snd (RedisManager.set SampleClient.healthy "greeting" "Hello, Redis!"
            (Some 300) SampleClient.fresh)) =
  [RedisManager.mkEntry RedisManager.Stdout
     [RedisManager.VStr "Set key: greeting = Hello, Redis!"]].
Proof. reflexivity. Qed.

Example lRange_logs_default_bounds :
  RedisManager.console
    (snd (RedisManager.lRange SampleClient.healthy "tasks" None None
            SampleClient.fresh)) =
  [RedisManager.mkEntry RedisManager.Stdout
     [RedisManager.VTemplate
        [RedisManager.Text "List range: tasks["; RedisManager.Num 0;
         RedisManager.Text ":"; RedisManager.Num (-1);
         RedisManager.Text "] ="];
      RedisManager.VArray ["Deploy to AWS"; "Build project"]]].
Proof. reflexivity. Qed.
